(** * naturecc: the replication pipeline of the climate-communication study

    A shallow embedding of the aggregator [final/src/analysis.py] and of
    the figure renderers of [final/src/figures.py], and the properties that
    the specification states about them.

    Modelling conventions.
    - A pandas [DataFrame] is a record of its column labels and its rows;
      a row is a record holding the cells the code reads.  A null cell
      (NaN, None, NaT) is [None].
    - A Python [float] is an exact rational ([Q]).  The gap ratio is
      computed in binary64: each of its divisions and its final [round]
      yield the nearest double ([binary64], ties to even), so that its
      value is the one the code emits, also at decimal ties.  The other
      rates are idealised: their binary64 rounding error is outside the
      model.  The two ways a quotient is formed in the code are kept apart:
      [/] on Python scalars raises [ZeroDivisionError] on a zero divisor
      ([py_truediv]); [/] with a NumPy scalar on the left yields nan or an
      infinity instead ([np_truediv]).
    - Exceptions are values of [exn], threaded through the [result] monad. *)

From Stdlib Require Import ZArith QArith Qround Qabs Qpower Lqa Ascii.
From stdpp Require Import base list strings gmap sorting pretty.

Local Open Scope Z_scope.
Local Open Scope stdpp_scope.

(** ** Exceptions and the error monad *)

Inductive exn : Type :=
  | ValueError (msg : string)
  | KeyError (key : string)
  | ZeroDivisionError
  | FileNotFoundError (path : string).

Inductive result (A : Type) : Type :=
  | Ok (a : A)
  | Raise (e : exn).
Arguments Ok {A} a.
Arguments Raise {A} e.

Global Instance result_ret : MRet result := λ A a, Ok a.
Global Instance result_bind : MBind result := λ A B k m,
  match m with
  | Ok a => k a
  | Raise e => Raise e
  end.

Definition raises {A} (m : result A) : Prop := ∃ e, m = Raise e.

(** ** Data frames *)

Record DataFrame (R : Type) : Type := mkFrame {
  columns : list string;
  rows : list R
}.
Arguments mkFrame {R} columns rows.
Arguments columns {R} d.
Arguments rows {R} d.

(** [repr] of a list of plain strings (no quote, no escape: the column
    names the callers pass), as an f-string interpolates it. *)
Definition py_repr_str (s : string) : string := "'" +:+ s +:+ "'".
Definition py_repr_list (l : list string) : string :=
  "[" +:+ String.concat ", " (py_repr_str <$> l) +:+ "]".

(** [analysis._require_columns] and [figures._require_columns] (the two
    are the same function). *)
Definition _require_columns {R} (df : DataFrame R) (name : string)
    (cols : list string) : result unit :=
  let missing := filter (λ c, c ∉ columns df) cols in
  match missing with
  | [] => Ok tt
  | _ :: _ => Raise (ValueError
      (name +:+ " missing required columns: " +:+ py_repr_list missing))
  end.

(** [msg] contains [part] as a contiguous piece. *)
Definition mentions (msg part : string) : Prop :=
  ∃ pre post, msg = pre +:+ part +:+ post.

(** ** Numbers *)

(** A float that may be non-finite: the result of NumPy arithmetic. *)
Inductive npfloat : Type :=
  | Fin (q : Q)
  | NaN
  | Inf (negative : bool).

(** Python scalar division: [a / b] raises on a zero divisor. *)
Definition py_truediv (a b : Q) : result Q :=
  if Qeq_bool b 0 then Raise ZeroDivisionError else Ok (a / b)%Q.

(** NumPy scalar division: [a / b] with [a] a [numpy.float64]; a zero
    divisor gives nan or a signed infinity (and a warning), no exception. *)
Definition np_truediv (a b : Q) : npfloat :=
  if Qeq_bool b 0 then
    match (a ?= 0)%Q with
    | Eq => NaN
    | Gt => Inf false
    | Lt => Inf true
    end
  else Fin (a / b)%Q.

Definition round_half_even (q : Q) : Z :=
  let f := Qfloor q in
  match (q - inject_Z f ?= 1 # 2)%Q with
  | Lt => f
  | Gt => f + 1
  | Eq => if Z.even f then f else f + 1
  end.

(** [round(q, ndigits)] *)
Definition py_round (ndigits : nat) (q : Q) : Q :=
  let scale := Z.to_pos (10 ^ Z.of_nat ndigits) in
  round_half_even (q * inject_Z (Z.pos scale)) # scale.

(** [floor (log2 |q|)] of a rational that is not zero. *)
Definition ilog2 (q : Q) : Z :=
  let e := Z.log2 (Z.abs (Qnum q)) - Z.log2 (Z.pos (Qden q)) in
  if Qle_bool (2 ^ e) (Qabs q) then e else e - 1.

(** The double nearest to [q], ties to even: [q] is rounded to a multiple
    of the unit in the last place of its binade, 53 bits being kept.  The
    exponent range is not modelled; the values met here are quotients of
    document counts and stay far inside it. *)
Definition binary64 (q : Q) : Q :=
  if Qeq_bool q 0 then 0%Q
  else let ulp := (2 ^ (ilog2 q - 52))%Q in
       Qred (inject_Z (round_half_even (q / ulp)) * ulp).

(** [a / b] on two Python ints or two Python floats, in binary64: the
    exact quotient correctly rounded. *)
Definition py_truediv_b64 (a b : Q) : result Q :=
  if Qeq_bool b 0 then Raise ZeroDivisionError else Ok (binary64 (a / b)).

(** [round(x, ndigits)] of a double: the exact value of [x] is rounded to
    the decimal grid, ties to even, and the double nearest to that decimal
    is returned. *)
Definition py_round_b64 (ndigits : nat) (x : Q) : Q :=
  let scale := Z.to_pos (10 ^ Z.of_nat ndigits) in
  binary64 (round_half_even (x * inject_Z (Z.pos scale)) # scale).

(** The unit roundoff of binary64, [2 ^ -53]. *)
Definition unit_roundoff : Q := 1 # 9007199254740992.

Definition np_round (ndigits : nat) (x : npfloat) : npfloat :=
  match x with
  | Fin q => Fin (py_round ndigits q)
  | _ => x
  end.

Definition Qsum (l : list Q) : Q := foldr Qplus 0%Q l.

Definition of_len {A} (l : list A) : Q := inject_Z (Z.of_nat (length l)).

(** A value stored in the metrics record. *)
Inductive value : Type :=
  | VInt (z : Z)
  | VFloat (x : npfloat)
  | VStr (s : string).

(** ** pandas helpers *)

(** [Series.dropna()] *)
Definition dropna {A} (l : list (option A)) : list A := omap id l.

(** [Series.unique()]: distinct values in order of first appearance. *)
Fixpoint unique {A} `{EqDecision A} (l : list A) : list A :=
  match l with
  | [] => []
  | x :: l => x :: filter (λ y, y ≠ x) (unique l)
  end.

(** [Series.nunique()]: nulls are not counted. *)
Definition nunique {A} `{EqDecision A} (l : list (option A)) : Z :=
  Z.of_nat (length (unique (dropna l))).

(** [df.reset_index(drop=True)] followed by [df["..._id"] = df.index]:
    every row is paired with its position. *)
Definition with_ids {R} (l : list R) : list (Z * R) :=
  imap (λ i r, (Z.of_nat i, r)) l.

(** [Series.isin(values)]: a null cell is in no set. *)
Definition isin {A} `{EqDecision A} (cell : option A) (values : list A) : bool :=
  match cell with
  | Some v => bool_decide (v ∈ values)
  | None => false
  end.

(** [ids.isin(values).sum()] over rows that carry their id. *)
Definition isin_sum {R} (sub : list (Z * R)) (values : list Z) : Z :=
  Z.of_nat (length (filter (λ r, r.1 ∈ values) sub)).

(** [int(series.min())]: the minimum skips nulls and is nan when nothing
    is left; [int(nan)] raises. *)
Definition int_min (l : list (option Z)) : result Z :=
  match dropna l with
  | [] => Raise (ValueError "cannot convert float NaN to integer")
  | x :: xs => Ok (foldr Z.min x xs)
  end.

Definition int_max (l : list (option Z)) : result Z :=
  match dropna l with
  | [] => Raise (ValueError "cannot convert float NaN to integer")
  | x :: xs => Ok (foldr Z.max x xs)
  end.

(** [Series.mean()] with nulls skipped. *)
Definition series_mean (l : list npfloat) : npfloat :=
  let has_pos := existsb (λ x, match x with Inf false => true | _ => false end) l in
  let has_neg := existsb (λ x, match x with Inf true => true | _ => false end) l in
  let fin := omap (λ x, match x with Fin q => Some q | _ => None end) l in
  if has_pos && has_neg then NaN
  else if has_pos then Inf false
  else if has_neg then Inf true
  else match fin with
       | [] => NaN
       | _ :: _ => Fin (Qsum fin / of_len fin)
       end.

(** ** Timestamps *)

Record timestamp : Type := mkTs { ts_year : Z; ts_month : Z; ts_day : Z }.

Definition ts_leb (a b : timestamp) : bool :=
  (ts_year a <? ts_year b) ||
  ((ts_year a =? ts_year b) &&
   ((ts_month a <? ts_month b) ||
    ((ts_month a =? ts_month b) && (ts_day a <=? ts_day b)))).

Definition digit (c : Ascii.ascii) : option Z :=
  let n := Z.of_nat (Ascii.nat_of_ascii c) in
  if (48 <=? n) && (n <=? 57) then Some (n - 48) else None.

Fixpoint digits (acc : Z) (s : string) : option Z :=
  match s with
  | EmptyString => Some acc
  | String c s => d ← digit c; digits (10 * acc + d) s
  end.

(** [pd.Timestamp(s)] for a date written [YYYY-MM-DD]. *)
Definition Timestamp (s : string) : result timestamp :=
  let parsed :=
    y ← digits 0 (String.substring 0 4 s);
    m ← digits 0 (String.substring 5 2 s);
    d ← digits 0 (String.substring 8 2 s);
    if bool_decide (String.length s = 10%nat ∧
                    String.get 4 s = Some "-"%char ∧
                    String.get 7 s = Some "-"%char)
    then Some (mkTs y m d) else None in
  match parsed with
  | Some t => Ok t
  | None => Raise (ValueError ("could not convert string to Timestamp: " +:+ s))
  end.

(** [series >= t]: a comparison with NaT is false. *)
Definition ts_ge (cell : option timestamp) (t : timestamp) : bool :=
  match cell with
  | Some d => ts_leb t d
  | None => false
  end.

(** ** Documents *)

Record speech : Type := mkSpeech {
  s_year : option Z;
  s_institution : option string;
  s_has_climate : option bool;
  s_institution_harmonised : option string
}.

Record minute : Type := mkMinute {
  m_Date : option timestamp;  (* [pd.to_datetime(Date, errors="coerce")] *)
  m_year : option Z;
  m_institution : option string;
  m_Language : option string;
  m_has_climate : option bool
}.

Record excerpt : Type := mkExcerpt {
  e_doc_type : option string;
  e_speech_id : option Z;
  e_minute_id : option Z;
  e_institution : option string;
  e_year : option Z;
  e_ensemble_level : option Q;
  e_openai_level : option Q
}.

(** A row of [speeches_verified.csv] / [minutes_verified.csv]. *)
Record verified : Type := mkVerified {
  v_year : option Z;
  v_id : option Z
}.

Definition LAGARDE_APPOINTMENT_DATE : string := "2019-11-01".
Definition LAGARDE_COUNT_WINDOW_START : string := "2019-07-01".

Definition EXCLUDED_NON_CENTRAL : list string :=
  [ "Bank for International Settlements";
    "International Monetary Fund";
    "Office of the Superintendent of Financial Institutions";
    "Swiss Federal Banking Commission" ].

(** [speeches[~speeches["institution_harmonised"].isin(EXCLUDED_NON_CENTRAL)]] *)
Definition speeches_core {I} (speeches : list (I * speech)) : list (I * speech) :=
  filter (λ r, isin (s_institution_harmonised r.2) EXCLUDED_NON_CENTRAL = false)
    speeches.

(** ** The metric aggregator ([analysis.run_analysis]) *)

(** [ex.loc[ex["doc_type"] == t]] *)
Definition doc_type_is (t : string) (ex : list excerpt) : list excerpt :=
  filter (λ e, e_doc_type e = Some t) ex.

Definition speech_ids_verified (ex : list excerpt) : list Z :=
  dropna (e_speech_id <$> doc_type_is "speech" ex).
Definition minute_ids_verified (ex : list excerpt) : list Z :=
  dropna (e_minute_id <$> doc_type_is "minute" ex).

Definition verified_speech_docs (ex : list excerpt) : Z :=
  nunique (e_speech_id <$> doc_type_is "speech" ex).
Definition verified_minute_docs (ex : list excerpt) : Z :=
  nunique (e_minute_id <$> doc_type_is "minute" ex).

Record paired_row : Type := mkPaired {
  pr_institution : string;
  pr_speech_rate : npfloat;
  pr_minute_rate : npfloat
}.

(** The body of the loop over institutions: [None] is [continue], [Some]
    is the row appended. *)
Definition paired_row_of (speeches : list (Z * speech)) (minutes : list (Z * minute))
    (ex : list excerpt) (inst : string) : option paired_row :=
  let s_sub := filter (λ r, s_institution r.2 = Some inst) speeches in
  let m_sub := filter (λ r, m_institution r.2 = Some inst) minutes in
  if bool_decide (length s_sub = 0%nat ∨ length m_sub = 0%nat) then None
  else Some {|
    pr_institution := inst;
    pr_speech_rate :=
      np_truediv (100 * inject_Z (isin_sum s_sub (speech_ids_verified ex)))
                 (of_len s_sub);
    pr_minute_rate :=
      np_truediv (100 * inject_Z (isin_sum m_sub (minute_ids_verified ex)))
                 (of_len m_sub) |}.

(** [for inst in sorted(minutes["institution"].dropna().unique()): ...] *)
Definition paired_rows (speeches : list (Z * speech)) (minutes : list (Z * minute))
    (ex : list excerpt) : list paired_row :=
  omap (paired_row_of speeches minutes ex)
    (merge_sort String.le (unique (dropna (m_institution <$> minutes.*2)))).

(** [paired_df[col]]: a frame built from no rows has no columns. *)
Definition paired_column (col : string) (f : paired_row → npfloat)
    (paired : list paired_row) : result (list npfloat) :=
  match paired with
  | [] => Raise (KeyError col)
  | _ :: _ => Ok (f <$> paired)
  end.

(** The two tests of [scipy.stats], which the aggregator calls and this
    development does not look into. *)
Record scipy_stats : Type := mkStats {
  ttest_rel : list npfloat → list npfloat → result (npfloat * npfloat);
  mannwhitneyu : list Q → list Q → result (Q * npfloat)
}.

Definition ensemble_levels (t : string) (ex : list excerpt) : list Q :=
  dropna (e_ensemble_level <$> doc_type_is t ex).

(** [inst_submission]: institutions of the speech excerpts, with the
    Federal Reserve Board renamed. *)
Definition inst_submission (ex : list excerpt) : list (option string) :=
  (λ e, if decide (e_institution e = Some "Board of Governors of the Federal Reserve")
        then Some "Federal Reserve" else e_institution e) <$> doc_type_is "speech" ex.

Definition ecb (minutes : list (Z * minute)) : list (Z * minute) :=
  filter (λ r, m_institution r.2 = Some "European Central Bank") minutes.

(** [ecb[ecb["date_dt"] >= pd.Timestamp(start)]] *)
Definition since (start : timestamp) (docs : list (Z * minute)) : list (Z * minute) :=
  filter (λ r, ts_ge (m_Date r.2) start = true) docs.

Definition ecb_ids (ex : list excerpt) : list Z :=
  dropna (e_minute_id <$>
    filter (λ e, e_doc_type e = Some "minute" ∧
                 e_institution e = Some "European Central Bank") ex).

(** The rate entries of [main_numbers]. *)
Definition false_positive_rate_pct (verified_docs stage1_docs : Z) : result Q :=
  x ← py_truediv (inject_Z verified_docs) (inject_Z stage1_docs);
  mret (py_round 1 (100 * (1 - x))).

Definition rate_pct {R} (verified_docs : Z) (total : list R) : result Q :=
  x ← py_truediv (100 * inject_Z verified_docs) (of_len total);
  mret (py_round 1 x).

(** [round((verified_s / len(core)) / (verified_m / len(minutes)), 1)],
    in binary64. *)
Definition gap_ratio {R S} (verified_s : Z) (core : list R)
    (verified_m : Z) (minutes : list S) : result Q :=
  a ← py_truediv_b64 (inject_Z verified_s) (of_len core);
  b ← py_truediv_b64 (inject_Z verified_m) (of_len minutes);
  x ← py_truediv_b64 a b;
  mret (py_round_b64 1 x).

Definition ecb_rate_pct (window : list (Z * minute)) (ex : list excerpt) : npfloat :=
  np_round 1 (np_truediv (100 * inject_Z (isin_sum window (ecb_ids ex)))
                         (of_len window)).

Definition count_true (l : list (option bool)) : Z :=
  Z.of_nat (length (filter (λ c, c = Some true) l)).

Definition count_notna {A} (l : list (option A)) : Z :=
  Z.of_nat (length (dropna l)).

Definition len {A} (l : list A) : Z := Z.of_nat (length l).

(** The seven tables the aggregator loads. *)
Record tables : Type := mkTables {
  speeches_raw : DataFrame speech;
  minutes_raw : DataFrame minute;
  speeches_keyword_filtered : DataFrame (option Z);
  minutes_keyword_filtered : DataFrame (option Z);
  speeches_verified : DataFrame verified;
  minutes_verified : DataFrame verified;
  excerpts_classified : DataFrame excerpt
}.

(** The body of [run_analysis] between the reads and the writes: the
    column checks, the paired table, the two tests and the [main_numbers]
    dictionary (in source order). *)
Definition analysis (st : scipy_stats) (t : tables)
    : result (list (string * value) * list paired_row) :=
  _require_columns (speeches_raw t) "speeches_raw.csv"
    ["year"; "institution"; "has_climate"; "institution_harmonised"];;
  _require_columns (minutes_raw t) "minutes_raw.csv"
    ["Date"; "year"; "institution"; "Language"; "has_climate"];;
  _require_columns (speeches_keyword_filtered t) "speeches_keyword_filtered.csv"
    ["speech_id"];;
  _require_columns (minutes_keyword_filtered t) "minutes_keyword_filtered.csv"
    ["minute_id"];;
  _require_columns (excerpts_classified t) "excerpts_classified.csv"
    ["doc_type"; "speech_id"; "minute_id"; "institution"; "ensemble_level";
     "openai_level"];;
  let speeches := with_ids (rows (speeches_raw t)) in
  let minutes := with_ids (rows (minutes_raw t)) in
  let stage1_s := rows (speeches_keyword_filtered t) in
  let stage1_m := rows (minutes_keyword_filtered t) in
  let ex := rows (excerpts_classified t) in
  let core := speeches_core speeches in
  let paired := paired_rows speeches minutes ex in
  speech_rates ← paired_column "speech_rate" pr_speech_rate paired;
  minute_rates ← paired_column "minute_rate" pr_minute_rate paired;
  t_res ← ttest_rel st speech_rates minute_rates;
  u_res ← mannwhitneyu st (ensemble_levels "speech" ex) (ensemble_levels "minute" ex);
  count_start ← Timestamp LAGARDE_COUNT_WINDOW_START;
  ecb_lagarde_main ← mret (since count_start (ecb minutes));
  appointment ← Timestamp LAGARDE_APPOINTMENT_DATE;
  ecb_lagarde_appointment_window ← mret (since appointment (ecb minutes));
  speech_period_start ← int_min (s_year <$> speeches.*2);
  speech_period_end ← int_max (s_year <$> speeches.*2);
  minute_period_start ← int_min (m_year <$> minutes.*2);
  minute_period_end ← int_max (m_year <$> minutes.*2);
  speech_fp ← false_positive_rate_pct (verified_speech_docs ex) (nunique stage1_s);
  minute_fp ← false_positive_rate_pct (verified_minute_docs ex) (nunique stage1_m);
  speech_rate ← rate_pct (verified_speech_docs ex) core;
  minute_rate ← rate_pct (verified_minute_docs ex) minutes;
  gap ← gap_ratio (verified_speech_docs ex) core (verified_minute_docs ex) minutes;
  mret (
    [ ("speech_total_core_sample", VInt (len core));
      ("speech_institutions_core_sample",
         VInt (nunique (s_institution_harmonised <$> core.*2)));
      ("minute_total", VInt (len minutes));
      ("minute_institutions", VInt (nunique (m_institution <$> minutes.*2)));
      ("speech_period_start", VInt speech_period_start);
      ("speech_period_end", VInt speech_period_end);
      ("minute_period_start", VInt minute_period_start);
      ("minute_period_end", VInt minute_period_end);
      ("minute_languages", VInt (nunique (m_Language <$> minutes.*2)));
      ("stage0_speech_docs", VInt (count_true (s_has_climate <$> speeches.*2)));
      ("stage0_minute_docs", VInt (count_true (m_has_climate <$> minutes.*2)));
      ("stage1_speech_docs", VInt (nunique stage1_s));
      ("stage1_minute_docs", VInt (nunique stage1_m));
      ("stage1_speech_excerpts", VInt (len stage1_s));
      ("stage1_minute_excerpts", VInt (len stage1_m));
      ("verified_speech_docs", VInt (verified_speech_docs ex));
      ("verified_minute_docs", VInt (verified_minute_docs ex));
      ("verified_speech_excerpts", VInt (len (doc_type_is "speech" ex)));
      ("verified_minute_excerpts", VInt (len (doc_type_is "minute" ex)));
      ("speech_false_positive_rate_pct", VFloat (Fin speech_fp));
      ("minute_false_positive_rate_pct", VFloat (Fin minute_fp));
      ("speech_rate_core_denom_pct", VFloat (Fin speech_rate));
      ("minute_rate_pct", VFloat (Fin minute_rate));
      ("gap_ratio", VFloat (Fin gap));
      ("within_inst_speech_rate_pct", VFloat (np_round 1 (series_mean speech_rates)));
      ("within_inst_minute_rate_pct", VFloat (np_round 1 (series_mean minute_rates)));
      ("paired_t_stat", VFloat (np_round 2 t_res.1));
      ("paired_t_p", VFloat (np_round 3 t_res.2));
      ("mannwhitney_u", VFloat (Fin u_res.1));
      ("mannwhitney_p", VFloat (np_round 3 u_res.2));
      ("speech_institutions_with_climate_submission_rule",
         VInt (nunique (inst_submission ex)));
      ("minute_institutions_with_climate",
         VInt (nunique (e_institution <$> doc_type_is "minute" ex)));
      ("ecb_lagarde_docs", VInt (isin_sum ecb_lagarde_main (ecb_ids ex)));
      ("ecb_lagarde_total", VInt (len ecb_lagarde_main));
      ("ecb_lagarde_rate_pct", VFloat (ecb_rate_pct ecb_lagarde_main ex));
      ("ecb_lagarde_count_window_start", VStr LAGARDE_COUNT_WINDOW_START);
      ("ecb_lagarde_appointment_date_marker", VStr LAGARDE_APPOINTMENT_DATE);
      ("ecb_lagarde_total_if_strict_appointment_window",
         VInt (len ecb_lagarde_appointment_window));
      ("ecb_lagarde_rate_if_strict_appointment_window_pct",
         VFloat (ecb_rate_pct ecb_lagarde_appointment_window ex));
      ("llm_openai_labels", VInt (count_notna (e_openai_level <$> ex)));
      ("llm_ensemble_labels", VInt (count_notna (e_ensemble_level <$> ex)));
      ("speech_verified_excerpts_file_rows", VInt (len (rows (speeches_verified t))));
      ("minute_verified_excerpts_file_rows", VInt (len (rows (minutes_verified t)))) ],
    paired).

(** ** The report emitter: files read and written by [run_analysis] *)

Inductive file : Type :=
  | SpeechesCsv (df : DataFrame speech)
  | MinutesCsv (df : DataFrame minute)
  | IdsCsv (df : DataFrame (option Z))
  | VerifiedCsv (df : DataFrame verified)
  | ExcerptsCsv (df : DataFrame excerpt)
  | Json (items : list (string * value))
  | PairedCsv (table : list paired_row).

Definition as_speeches (f : file) : option (DataFrame speech) :=
  match f with SpeechesCsv df => Some df | _ => None end.
Definition as_minutes (f : file) : option (DataFrame minute) :=
  match f with MinutesCsv df => Some df | _ => None end.
Definition as_ids (f : file) : option (DataFrame (option Z)) :=
  match f with IdsCsv df => Some df | _ => None end.
Definition as_verified (f : file) : option (DataFrame verified) :=
  match f with VerifiedCsv df => Some df | _ => None end.
Definition as_excerpts (f : file) : option (DataFrame excerpt) :=
  match f with ExcerptsCsv df => Some df | _ => None end.

(** [pd.read_csv(path)]: the whole file is read; a file that is absent,
    or that does not hold the expected table, raises. *)
Definition read_csv {A} (view : file → option A) (path : string)
    (fs : gmap string file) : result A :=
  match fs !! path with
  | None => Raise (FileNotFoundError path)
  | Some f =>
      match view f with
      | Some df => Ok df
      | None => Raise (ValueError ("cannot parse " +:+ path))
      end
  end.

Definition key_le (a b : string * value) : Prop := String.le a.1 b.1.

(** [json.dump(obj, f, sort_keys=True)] into a file opened with ["w"]:
    the items are written in key order and replace the old content. *)
Definition json_dump (path : string) (obj : list (string * value))
    (fs : gmap string file) : gmap string file :=
  <[path := Json (merge_sort key_le obj)]> fs.

(** [paired_df.to_csv(path, index=False)] *)
Definition to_csv (path : string) (paired : list paired_row)
    (fs : gmap string file) : gmap string file :=
  <[path := PairedCsv paired]> fs.

Definition RAW : string := "data/raw/".
Definition PROCESSED : string := "data/processed/".
Definition STAGE1 : string := "data/stage1/".
Definition CLASSIFIED : string := "data/classified/".
Definition ANALYSIS : string := "outputs/analysis/".

(** [run_analysis] as a function of the file store.  Directories are not
    part of the store, so [ensure_dirs] has nothing to do. *)
Definition run_analysis (st : scipy_stats) (fs : gmap string file)
    : result (gmap string file) :=
  speeches ← read_csv as_speeches (RAW +:+ "speeches_raw.csv") fs;
  minutes ← read_csv as_minutes (RAW +:+ "minutes_raw.csv") fs;
  stage1_s ← read_csv as_ids (STAGE1 +:+ "speeches_keyword_filtered.csv") fs;
  stage1_m ← read_csv as_ids (STAGE1 +:+ "minutes_keyword_filtered.csv") fs;
  speech_verified ← read_csv as_verified (PROCESSED +:+ "speeches_verified.csv") fs;
  minute_verified ← read_csv as_verified (PROCESSED +:+ "minutes_verified.csv") fs;
  ex ← read_csv as_excerpts (CLASSIFIED +:+ "excerpts_classified.csv") fs;
  out ← analysis st (mkTables speeches minutes stage1_s stage1_m
                       speech_verified minute_verified ex);
  let fs := json_dump (ANALYSIS +:+ "main_numbers.json") out.1 fs in
  mret (to_csv (ANALYSIS +:+ "within_institution_rates.csv") out.2 fs).

(** The seven reads at the head of [run_analysis], and the paths involved. *)
Definition load (fs : gmap string file) : result tables :=
  speeches ← read_csv as_speeches (RAW +:+ "speeches_raw.csv") fs;
  minutes ← read_csv as_minutes (RAW +:+ "minutes_raw.csv") fs;
  stage1_s ← read_csv as_ids (STAGE1 +:+ "speeches_keyword_filtered.csv") fs;
  stage1_m ← read_csv as_ids (STAGE1 +:+ "minutes_keyword_filtered.csv") fs;
  speech_verified ← read_csv as_verified (PROCESSED +:+ "speeches_verified.csv") fs;
  minute_verified ← read_csv as_verified (PROCESSED +:+ "minutes_verified.csv") fs;
  ex ← read_csv as_excerpts (CLASSIFIED +:+ "excerpts_classified.csv") fs;
  mret (mkTables speeches minutes stage1_s stage1_m
                 speech_verified minute_verified ex).

Definition INPUTS : list string :=
  [ RAW +:+ "speeches_raw.csv";
    RAW +:+ "minutes_raw.csv";
    STAGE1 +:+ "speeches_keyword_filtered.csv";
    STAGE1 +:+ "minutes_keyword_filtered.csv";
    PROCESSED +:+ "speeches_verified.csv";
    PROCESSED +:+ "minutes_verified.csv";
    CLASSIFIED +:+ "excerpts_classified.csv" ].

Definition MAIN_NUMBERS_JSON : string := ANALYSIS +:+ "main_numbers.json".
Definition WITHIN_INSTITUTION_RATES_CSV : string :=
  ANALYSIS +:+ "within_institution_rates.csv".

(** ** The figure renderers ([figures.py])

    A renderer is modelled up to the numbers and texts it hands to the
    plotting library. *)

(** [df.groupby("year")[id].nunique().get(year, 0)] *)
Definition climate_by_year (docs : list verified) (year : Z) : Z :=
  nunique (v_id <$> filter (λ d, v_year d = Some year) docs).

(** [df.groupby("year").size().get(year, 0)] *)
Definition total_by_year {R} (year_of : R → option Z) (docs : list R) (year : Z) : Z :=
  len (filter (λ d, year_of d = Some year) docs).

(** [100 * climate / total if total > 0 else 0] *)
Definition rate_or_zero (climate total : Z) : npfloat :=
  if 0 <? total then np_truediv (100 * inject_Z climate) (inject_Z total)
  else Fin 0.

(** Figure 1: the two plotted series over [range(1997, 2025)]. *)
Definition fig1_temporal_trends (speeches : list speech) (minutes : list minute)
    (speeches_v minutes_v : list verified) : list npfloat * list npfloat :=
  let years := seqZ 1997 28 in
  ((λ year, rate_or_zero (climate_by_year speeches_v year)
                         (total_by_year s_year speeches year)) <$> years,
   (λ year, rate_or_zero (climate_by_year minutes_v year)
                         (total_by_year m_year minutes year)) <$> years).

(** [float(series.mean())] of a series without nulls. *)
Definition levels_mean (l : list Q) : npfloat := np_truediv (Qsum l) (of_len l).

(** [c * x] with [x] a NumPy float and [c] a positive constant. *)
Definition np_scale (c : Q) (x : npfloat) : npfloat :=
  match x with
  | Fin q => Fin (c * q)
  | _ => x
  end.

(** [round(100.0 * (series == lv).mean(), 1)] *)
Definition level_pct (l : list Q) (lv : Q) : npfloat :=
  np_round 1 (np_scale 100 (np_truediv
    (inject_Z (len (filter (λ x, Qeq_bool x lv = true) l))) (of_len l))).

Definition pad0 (width : nat) (s : string) : string :=
  String.concat EmptyString (replicate (width - String.length s) "0") +:+ s.

(** [f"{x:.2f}"] and the like. *)
Definition format_f (ndigits : nat) (x : npfloat) : string :=
  match x with
  | NaN => "nan"
  | Inf false => "inf"
  | Inf true => "-inf"
  | Fin q =>
      let scale := 10 ^ Z.of_nat ndigits in
      let z := round_half_even (Qabs q * inject_Z scale) in
      (match (q ?= 0)%Q with Lt => "-" | _ => EmptyString end) +:+
      pretty (z `div` scale) +:+ "." +:+ pad0 ndigits (pretty (z `mod` scale))
  end.

Record grouped_figure : Type := mkGrouped {
  speech_pct : list npfloat;
  minute_pct : list npfloat;
  speech_n : Z;
  minute_n : Z;
  title : string
}.

(** The commitment-level distribution figure. *)
Definition fig_commitment_grouped (ex : list excerpt) : grouped_figure :=
  let speech := ensemble_levels "speech" ex in
  let minute := ensemble_levels "minute" ex in
  let levels_numeric := [1; 3 # 2; 2; 5 # 2; 3]%Q in
  {| speech_pct := level_pct speech <$> levels_numeric;
     minute_pct := level_pct minute <$> levels_numeric;
     speech_n := len speech;
     minute_n := len minute;
     title := "Mean: Speeches=" +:+ format_f 2 (levels_mean speech) +:+
              ", Minutes=" +:+ format_f 2 (levels_mean minute) +:+
              "    (Mann-Whitney p=0.029)" |}.

Definition min_year (l : list Z) : option Z :=
  match l with
  | [] => None
  | x :: xs => Some (foldr Z.min x xs)
  end.

(** [ex[...][["institution", id]].drop_duplicates()
      .merge(raw[[id, "year"]], on=id, how="left")
      .groupby("institution")["year"].min()]:
    every institution with its first year, null when no year is known. *)
Definition first_year (pairs : list (option string * option Z))
    (year_of : Z → option Z) : list (string * option Z) :=
  let merged := (λ p, (p.1, p.2 ≫= year_of)) <$> unique pairs in
  (λ inst, (inst, min_year (dropna (snd <$>
              filter (λ p, p.1 = Some inst) merged)))) <$>
    merge_sort String.le (unique (dropna merged.*1)).

(** The year of the raw document with a given positional id. *)
Definition year_of {R} (year : R → option Z) (docs : list (Z * R)) (id : Z)
    : option Z :=
  head (filter (λ r, r.1 = id) docs) ≫= λ r, year r.2.

Record lag_row : Type := mkLag {
  lag_institution : string;
  first_speech : Z;
  first_minute : Z;
  lag : Z
}.

(** [sorted(rows, key=lambda x: x["lag"], reverse=True)] (stable). *)
Fixpoint insert_by_lag (x : lag_row) (l : list lag_row) : list lag_row :=
  match l with
  | [] => [x]
  | y :: l' => if lag x <? lag y then y :: insert_by_lag x l' else x :: l
  end.
Definition sorted_by_lag_desc (l : list lag_row) : list lag_row :=
  foldr insert_by_lag [] l.

(** The first-mention lag figure: the plotted rows and the mean lag. *)
Definition fig_first_mention_lag (speeches : list speech) (minutes : list minute)
    (ex : list excerpt) : result (list lag_row * Q) :=
  let speeches_raw := with_ids speeches in
  let minutes_raw := with_ids minutes in
  let speech_first :=
    first_year ((λ e, (e_institution e, e_speech_id e)) <$> doc_type_is "speech" ex)
               (year_of s_year speeches_raw) in
  let minute_first :=
    first_year ((λ e, (e_institution e, e_minute_id e)) <$> doc_type_is "minute" ex)
               (year_of m_year minutes_raw) in
  let common :=
    merge_sort String.le (filter (λ i, i ∈ minute_first.*1) speech_first.*1) in
  let rows :=
    omap (λ inst,
      match (list_to_map speech_first : gmap string (option Z)) !! inst,
            (list_to_map minute_first : gmap string (option Z)) !! inst with
      | Some (Some sp), Some (Some mn) => Some (mkLag inst sp mn (mn - sp))
      | _, _ => None
      end) common in
  let data := sorted_by_lag_desc rows in
  mean_lag ← py_truediv (inject_Z (foldr Z.add 0 (lag <$> data))) (of_len data);
  mret (data, mean_lag).

(** ** The exact Mann-Whitney test

    What [scipy.stats.mannwhitneyu(x, y, alternative="two-sided")] computes
    on samples without ties of which one has at most eight values. *)

(** The U statistic of the first sample. *)
Definition mwu_statistic (x y : list Q) : Q :=
  Qsum (a ← x; b ← y;
        [match (a ?= b)%Q with Gt => 1 | Eq => 1 # 2 | Lt => 0 end]%Q).

(** The number of orderings of [n1 + n2] distinct values in which the
    first sample has statistic [u]. *)
Fixpoint mwu_count (n1 : nat) : nat → Z → Z :=
  fix count n2 u :=
    match n1, n2 with
    | O, _ | _, O => if u =? 0 then 1 else 0
    | S n1', S n2' => mwu_count n1' n2 (u - Z.of_nat n2) + count n2' u
    end.

Fixpoint has_ties (l : list Q) : bool :=
  match l with
  | [] => false
  | x :: l' => existsb (Qeq_bool x) l' || has_ties l'
  end.

Definition mannwhitneyu_exact (x y : list Q) : option (Q * npfloat) :=
  let n1 := length x in
  let n2 := length y in
  if bool_decide (n1 = 0 ∨ n2 = 0)%nat || has_ties (x ++ y) ||
     bool_decide (8 < n1 ∧ 8 < n2)%nat then None
  else
    let u1 := mwu_statistic x y in
    let u2 := (of_len x * of_len y - u1)%Q in
    let u := Qceiling (if Qle_bool u1 u2 then u2 else u1) in
    let all := Qsum ((λ k, inject_Z (mwu_count n1 n2 k)) <$> seqZ 0 (Z.of_nat (n1 * n2) + 1)) in
    let tail := Qsum ((λ k, inject_Z (mwu_count n1 n2 k)) <$> seqZ u (Z.of_nat (n1 * n2) + 1 - u)) in
    let p := (2 * tail / all)%Q in
    Some (u1, Fin (Qred (if Qle_bool p 1 then p else 1))).

(** ** Small samples

    An instance of the two tests for samples small enough to be decided by
    hand: the paired test on a single pair, where the statistic and the
    p-value are both nan, and the exact Mann-Whitney test.  Any other sample
    lies outside this instance, which answers it with an error. *)

Definition ttest_rel_single (a b : list npfloat) : result (npfloat * npfloat) :=
  if bool_decide (length a = 1 ∧ length b = 1)%nat then Ok (NaN, NaN)
  else Raise (ValueError "paired sample outside the small-sample instance").

Definition mannwhitneyu_small (x y : list Q) : result (Q * npfloat) :=
  match mannwhitneyu_exact x y with
  | Some r => Ok r
  | None => Raise (ValueError "sample outside the small-sample instance")
  end.

Definition small_sample_stats : scipy_stats :=
  mkStats ttest_rel_single mannwhitneyu_small.

(** [main_numbers[key]] *)
Definition get (key : string) (items : list (string * value)) : option value :=
  snd <$> head (filter (λ kv, kv.1 = key) items).

(** Concrete tables. *)

Definition SPEECH_COLUMNS : list string :=
  ["year"; "institution"; "has_climate"; "institution_harmonised"].
Definition MINUTE_COLUMNS : list string :=
  ["Date"; "year"; "institution"; "Language"; "has_climate"].
Definition EXCERPT_COLUMNS : list string :=
  ["doc_type"; "speech_id"; "minute_id"; "institution"; "year";
   "ensemble_level"; "openai_level"].

Definition a_speech (year : Z) (institution : string) : speech :=
  mkSpeech (Some year) (Some institution) (Some true) (Some institution).

Definition a_minute (date : timestamp) (institution : string) : minute :=
  mkMinute (Some date) (Some (ts_year date)) (Some institution) (Some "en")
           (Some true).

Definition speech_excerpt (id : Z) (institution : string) (year : Z) (level : Q)
    : excerpt :=
  mkExcerpt (Some "speech") (Some id) None (Some institution) (Some year)
            (Some level) (Some level).

Definition minute_excerpt (id : Z) (institution : string) (year : Z) (level : Q)
    : excerpt :=
  mkExcerpt (Some "minute") None (Some id) (Some institution) (Some year)
            (Some level) (Some level).

Definition tables_of (speeches : list speech) (minutes : list minute)
    (stage1_s stage1_m : list Z) (ex : list excerpt) : tables :=
  {| speeches_raw := mkFrame SPEECH_COLUMNS speeches;
     minutes_raw := mkFrame MINUTE_COLUMNS minutes;
     speeches_keyword_filtered := mkFrame ["speech_id"] (Some <$> stage1_s);
     minutes_keyword_filtered := mkFrame ["minute_id"] (Some <$> stage1_m);
     speeches_verified :=
       mkFrame ["year"; "speech_id"] ((λ i, mkVerified (Some 2020) (Some i)) <$> stage1_s);
     minutes_verified :=
       mkFrame ["year"; "minute_id"] ((λ i, mkVerified (Some 2020) (Some i)) <$> stage1_m);
     excerpts_classified := mkFrame EXCERPT_COLUMNS ex |}.

(** One central bank with a verified speech and a verified minute, and a
    verified speech of an excluded institution. *)
Definition tables_with_excluded_speech : tables :=
  tables_of
    [a_speech 2020 "Bank of England";
     a_speech 2020 "Bank for International Settlements"]
    [a_minute (mkTs 2020 1 15) "Bank of England"]
    [0; 1] [0]
    [speech_excerpt 0 "Bank of England" 2020 2;
     speech_excerpt 1 "Bank for International Settlements" 2020 1;
     minute_excerpt 0 "Bank of England" 2020 3].

(** One verified speech, and fourteen minutes of which the first is
    verified. *)
Definition tables_one_in_fourteen : tables :=
  tables_of
    [a_speech 2021 "Bank of Japan"]
    (replicate 14 (a_minute (mkTs 2021 6 1) "Bank of Japan"))
    [0] [0]
    [speech_excerpt 0 "Bank of Japan" 2021 2;
     minute_excerpt 0 "Bank of Japan" 2021 1].

(** The European Central Bank with a verified speech and a verified minute,
    the minute dated before the count window. *)
Definition tables_ecb_before_window : tables :=
  tables_of
    [a_speech 2018 "European Central Bank"]
    [a_minute (mkTs 2018 3 8) "European Central Bank"]
    [0] [0]
    [speech_excerpt 0 "European Central Bank" 2018 1;
     minute_excerpt 0 "European Central Bank" 2018 2].

(** Two institutions with minutes, one of which also gives speeches; the
    verified speech and the verified minute belong to different
    institutions. *)
Definition tables_no_common_institution : tables :=
  tables_of
    [a_speech 2015 "Bank of Canada"]
    [a_minute (mkTs 2016 4 13) "Bank of Canada";
     a_minute (mkTs 2019 5 2) "Bank of Mexico"]
    [0] [1]
    [speech_excerpt 0 "Bank of Canada" 2015 2;
     minute_excerpt 1 "Bank of Mexico" 2019 1].

(** Four minutes of the European Central Bank around the two window
    starts, the first and the third verified. *)
Definition tables_ecb_lagarde : tables :=
  tables_of
    [a_speech 2019 "European Central Bank"]
    [a_minute (mkTs 2019 3 7) "European Central Bank";
     a_minute (mkTs 2019 9 12) "European Central Bank";
     a_minute (mkTs 2019 12 12) "European Central Bank";
     a_minute (mkTs 2020 1 23) "European Central Bank"]
    [0] [0; 2]
    [speech_excerpt 0 "European Central Bank" 2019 2;
     minute_excerpt 0 "European Central Bank" 2019 1;
     minute_excerpt 2 "European Central Bank" 2019 3].

(** The file store that holds the seven input files of [t] and nothing
    else. *)
Definition store_of (t : tables) : gmap string file :=
  list_to_map
    [ (RAW +:+ "speeches_raw.csv", SpeechesCsv (speeches_raw t));
      (RAW +:+ "minutes_raw.csv", MinutesCsv (minutes_raw t));
      (STAGE1 +:+ "speeches_keyword_filtered.csv",
         IdsCsv (speeches_keyword_filtered t));
      (STAGE1 +:+ "minutes_keyword_filtered.csv",
         IdsCsv (minutes_keyword_filtered t));
      (PROCESSED +:+ "speeches_verified.csv", VerifiedCsv (speeches_verified t));
      (PROCESSED +:+ "minutes_verified.csv", VerifiedCsv (minutes_verified t));
      (CLASSIFIED +:+ "excerpts_classified.csv",
         ExcerptsCsv (excerpts_classified t)) ].

(** * Properties *)

Lemma append_cons x a b : String x a +:+ b = String x (a +:+ b).
Proof. reflexivity. Qed.

Lemma append_assoc (a b c : string) : (a +:+ b) +:+ c = a +:+ b +:+ c.
Proof. induction a as [|x a IH]; [done | by rewrite !append_cons, IH]. Qed.

Lemma append_empty_r (a : string) : a +:+ EmptyString = a.
Proof. induction a as [|x a IH]; [done | by rewrite append_cons, IH]. Qed.

Lemma mentions_app_r pre msg part : mentions msg part → mentions (pre +:+ msg) part.
Proof.
  intros (p & q & ->). exists (pre +:+ p), q. by rewrite append_assoc.
Qed.

Lemma mentions_app_l msg post part : mentions msg part → mentions (msg +:+ post) part.
Proof.
  intros (p & q & ->). exists p, (q +:+ post). by rewrite !append_assoc.
Qed.

Lemma mentions_refl s : mentions s s.
Proof. exists EmptyString, EmptyString. simpl. by rewrite append_empty_r. Qed.

Lemma concat_mentions sep (l : list string) s :
  s ∈ l → mentions (String.concat sep l) s.
Proof.
  induction l as [|x l IH]; [by intros ?%elem_of_nil |].
  intros [->|Hin]%elem_of_cons; simpl.
  - destruct l; [apply mentions_refl | apply mentions_app_l, mentions_refl].
  - destruct l as [|y l]; [by apply elem_of_nil in Hin |].
    apply mentions_app_r, mentions_app_r, IH, Hin.
Qed.

Lemma py_repr_list_mentions (l : list string) c :
  c ∈ l → mentions (py_repr_list l) (py_repr_str c).
Proof.
  intros Hin. unfold py_repr_list.
  apply mentions_app_r, mentions_app_l, concat_mentions.
  by apply list_elem_of_fmap_2.
Qed.

Section pandas_facts.
Context {A : Type} `{EqDecision A}.

Lemma elem_of_unique (l : list A) x : x ∈ unique l ↔ x ∈ l.
Proof.
  induction l as [|y l IH]; simpl; [done |].
  rewrite !elem_of_cons, list_elem_of_filter, IH.
  destruct (decide (x = y)); tauto.
Qed.

Lemma NoDup_unique (l : list A) : NoDup (unique l).
Proof.
  induction l as [|y l IH]; simpl; constructor.
  - rewrite list_elem_of_filter. tauto.
  - by apply NoDup_filter.
Qed.

Lemma elem_of_dropna (l : list (option A)) x : x ∈ dropna l ↔ Some x ∈ l.
Proof.
  unfold dropna. rewrite list_elem_of_omap. split.
  - intros (o & Ho & Hx). simpl in Hx. by subst.
  - intros Hx. by exists (Some x).
Qed.
End pandas_facts.

Lemma filter_length_pos {A} (P : A → Prop) `{∀ x, Decision (P x)} (l : list A) :
  length (filter P l) ≠ 0%nat ↔ ∃ x, x ∈ l ∧ P x.
Proof.
  split.
  - destruct (filter P l) as [|x l'] eqn:Hf; [done |]. intros _.
    assert (x ∈ filter P l) as Hin by (rewrite Hf; left).
    apply list_elem_of_filter in Hin. exists x. tauto.
  - intros (x & Hx & HP) Hlen.
    apply length_zero_iff_nil in Hlen.
    assert (x ∈ filter P l) as Hin by (by apply list_elem_of_filter).
    rewrite Hlen in Hin. by apply elem_of_nil in Hin.
Qed.

Lemma of_len_nonzero {A} (l : list A) : length l ≠ 0%nat → Qeq_bool (of_len l) 0 = false.
Proof.
  intros Hl. unfold of_len. destruct l; [done |]. reflexivity.
Qed.

Lemma np_truediv_finite {A} a (l : list A) :
  length l ≠ 0%nat → np_truediv a (of_len l) = Fin (a / of_len l).
Proof. intros Hl. unfold np_truediv. by rewrite of_len_nonzero. Qed.

Lemma omap_institutions {A B} (f : A → option B) (g : B → A) (l : list A) :
  (∀ a b, f a = Some b → g b = a) →
  g <$> omap f l = filter (λ a, is_Some (f a)) l.
Proof.
  intros Hg. induction l as [|a l IH]; [done |].
  rewrite filter_cons. csimpl. destruct (f a) as [b|] eqn:Hf.
  - rewrite decide_True by eauto. csimpl. by rewrite IH, (Hg a b).
  - rewrite decide_False by (by intros [? ?]). done.
Qed.

(** C9. [_require_columns] raises exactly when some required column is
    absent from the frame; the exception is a [ValueError] whose message
    starts with the file name and quotes every absent required column;
    when every required column is present the check returns normally. *)
Theorem require_columns_spec {R} (df : DataFrame R) (name : string)
    (cols : list string) :
  (raises (_require_columns df name cols) ↔ ∃ c, c ∈ cols ∧ c ∉ columns df) ∧
  (_require_columns df name cols = Ok tt ↔ ∀ c, c ∈ cols → c ∈ columns df) ∧
  (∀ e, _require_columns df name cols = Raise e →
     ∃ rest, e = ValueError (name +:+ " missing required columns: " +:+ rest) ∧
       ∀ c, c ∈ cols → c ∉ columns df → mentions rest (py_repr_str c)).
Proof.
  unfold _require_columns, raises.
  destruct (filter (λ c, c ∉ columns df) cols) as [|m ms] eqn:Hf.
  - assert (Hall : ∀ c, c ∈ cols → c ∈ columns df).
    { intros c Hc. destruct (decide (c ∈ columns df)) as [|Hn]; [done |].
      assert (c ∈ filter (λ c, c ∉ columns df) cols) as Hin
        by (apply list_elem_of_filter; done).
      rewrite Hf in Hin. by apply elem_of_nil in Hin. }
    split_and!.
    + split; [by intros [e ?] | intros (c & Hc & Hn); exfalso; by apply Hn, Hall].
    + done.
    + by intros e ?.
  - assert (Hm : m ∈ cols ∧ m ∉ columns df).
    { assert (m ∈ filter (λ c, c ∉ columns df) cols) as Hin
        by (rewrite Hf; left).
      apply list_elem_of_filter in Hin. tauto. }
    split_and!.
    + split; [intros _; by exists m | intros _; eauto].
    + split; [done | intros Hall; destruct Hm as [? Hn]; exfalso; by apply Hn, Hall].
    + intros e [= <-]. eexists; split; [done |].
      intros c Hc Hn. apply py_repr_list_mentions.
      rewrite <- Hf. by apply list_elem_of_filter.
Qed.

(** C8. The core sample keeps exactly the speeches whose harmonised
    institution name is not one of the four excluded names, so its size is
    the number of speeches minus the number of speeches in the excluded
    set. *)
Theorem speeches_core_count {I} (speeches : list (I * speech)) :
  (∀ r, r ∈ speeches_core speeches ↔
     r ∈ speeches ∧
     s_institution_harmonised r.2 ≠ Some "Bank for International Settlements" ∧
     s_institution_harmonised r.2 ≠ Some "International Monetary Fund" ∧
     s_institution_harmonised r.2 ≠
       Some "Office of the Superintendent of Financial Institutions" ∧
     s_institution_harmonised r.2 ≠ Some "Swiss Federal Banking Commission") ∧
  Z.of_nat (length (speeches_core speeches)) =
    Z.of_nat (length speeches) -
    Z.of_nat (length (filter
      (λ r, isin (s_institution_harmonised r.2) EXCLUDED_NON_CENTRAL = true)
      speeches)).
Proof.
  split.
  - intros r. unfold speeches_core. rewrite list_elem_of_filter.
    unfold isin, EXCLUDED_NON_CENTRAL.
    destruct (s_institution_harmonised r.2) as [h|].
    + rewrite bool_decide_eq_false, !elem_of_cons, elem_of_nil.
      split.
      * intros [H1 H2]. split; [done |].
        split_and!; intros [= ->]; apply H1; tauto.
      * intros (H1 & Ha & Hb & Hc & Hd). split; [| done].
        intros [->|[->|[->|[->|[]]]]]; congruence.
    + split; [intros [_ ?] | intros [? _]]; split_and!; done.
  - unfold speeches_core.
    induction speeches as [|r l IH]; [done |].
    rewrite !filter_cons.
    destruct (isin (s_institution_harmonised r.2) EXCLUDED_NON_CENTRAL);
      repeat case_decide; try done; simpl length; lia.
Qed.

(** C1. An institution has a row in the paired rate table exactly when
    some speech and some minute carry its name; it then has one row, and
    both of its rates are finite quotients: an institution without
    documents of one type is skipped before any division, so no division
    by zero is ever met, let alone caught. *)
Theorem paired_rows_spec (speeches : list (Z * speech)) (minutes : list (Z * minute))
    (ex : list excerpt) :
  (∀ inst, inst ∈ pr_institution <$> paired_rows speeches minutes ex ↔
     (∃ s, s ∈ speeches ∧ s_institution s.2 = Some inst) ∧
     (∃ m, m ∈ minutes ∧ m_institution m.2 = Some inst)) ∧
  NoDup (pr_institution <$> paired_rows speeches minutes ex) ∧
  (∀ r, r ∈ paired_rows speeches minutes ex →
     ∃ s m, pr_speech_rate r = Fin s ∧ pr_minute_rate r = Fin m).
Proof.
  unfold paired_rows.
  assert (Hsome : ∀ inst, is_Some (paired_row_of speeches minutes ex inst) ↔
     (∃ s, s ∈ speeches ∧ s_institution s.2 = Some inst) ∧
     (∃ m, m ∈ minutes ∧ m_institution m.2 = Some inst)).
  { intros inst. unfold paired_row_of.
    rewrite <- (filter_length_pos (λ r : Z * speech, s_institution r.2 = Some inst)).
    rewrite <- (filter_length_pos (λ r : Z * minute, m_institution r.2 = Some inst)).
    case_bool_decide; split.
    - by intros [? ?].
    - tauto.
    - intros _. tauto.
    - eauto. }
  assert (Hinst : ∀ a b, paired_row_of speeches minutes ex a = Some b →
                         pr_institution b = a).
  { intros a b. unfold paired_row_of. case_bool_decide; [done |]. by intros [= <-]. }
  split_and!.
  - intros inst. rewrite (omap_institutions _ _ _ Hinst), list_elem_of_filter, Hsome.
    rewrite merge_sort_Permutation, elem_of_unique, elem_of_dropna.
    rewrite list_elem_of_fmap. split; [tauto |].
    intros [Hs (m & Hm & Hi)]. split; [by eauto |].
    exists m.2. split; [done |].
    apply list_elem_of_fmap. eauto.
  - rewrite (omap_institutions _ _ _ Hinst). apply NoDup_filter.
    rewrite merge_sort_Permutation. apply NoDup_unique.
  - intros r (inst & _ & Hr)%list_elem_of_omap. revert Hr.
    unfold paired_row_of. case_bool_decide as Hlen; [done |]. intros [= <-]. simpl.
    rewrite !np_truediv_finite by tauto. eauto.
Qed.

Lemma round_half_even_proper (q q' : Q) :
  (q == q')%Q → round_half_even q = round_half_even q'.
Proof.
  intros Hq. unfold round_half_even.
  rewrite (Qfloor_comp _ _ Hq).
  assert (Hc : (q - inject_Z (Qfloor q') ?= 1 # 2)%Q =
               (q' - inject_Z (Qfloor q') ?= 1 # 2)%Q).
  { apply Qcompare_comp; [by rewrite Hq | reflexivity]. }
  by rewrite Hc.
Qed.

Lemma py_round_proper n (q q' : Q) : (q == q')%Q → py_round n q = py_round n q'.
Proof.
  intros Hq. unfold py_round. f_equal.
  apply round_half_even_proper. by rewrite Hq.
Qed.

Lemma round_half_even_bounds (a b : Z) (q : Q) :
  (inject_Z a <= q)%Q → (q <= inject_Z b)%Q →
  a ≤ round_half_even q ≤ b.
Proof.
  intros Ha Hb. unfold round_half_even.
  pose proof (Qfloor_resp_le _ _ Ha) as Hfa. rewrite Qfloor_Z in Hfa.
  pose proof (Qfloor_resp_le _ _ Hb) as Hfb. rewrite Qfloor_Z in Hfb.
  assert (Hup : (1 # 4 < q - inject_Z (Qfloor q))%Q → Qfloor q + 1 ≤ b).
  { intros Hgt. destruct (decide (Qfloor q = b)) as [Heq|]; [| lia].
    rewrite Heq in Hgt. exfalso. lra. }
  destruct (q - inject_Z (Qfloor q) ?= 1 # 2)%Q eqn:Hc.
  - apply Qeq_alt in Hc. destruct (Z.even (Qfloor q)); [lia |].
    split; [lia | apply Hup; lra].
  - lia.
  - apply Qgt_alt in Hc. split; [lia | apply Hup; lra].
Qed.

Lemma py_round1_bounds (a b : Z) (q : Q) :
  (inject_Z a <= q)%Q → (q <= inject_Z b)%Q →
  (inject_Z a <= py_round 1 q)%Q ∧ (py_round 1 q <= inject_Z b)%Q.
Proof.
  intros Ha Hb. unfold py_round.
  change (Z.to_pos (10 ^ Z.of_nat 1)) with 10%positive.
  destruct (round_half_even_bounds (10 * a) (10 * b) (q * inject_Z 10)) as [H1 H2].
  - rewrite inject_Z_mult. change (inject_Z 10) with 10%Q. lra.
  - rewrite inject_Z_mult. change (inject_Z 10) with 10%Q. lra.
  - change (inject_Z (Z.pos 10)) with 10%Q in *.
    unfold Qle, inject_Z. simpl. lia.
Qed.

Lemma Qeq_bool_inject_Z (z : Z) : Qeq_bool (inject_Z z) 0 = (z =? 0).
Proof. unfold Qeq_bool, inject_Z. simpl. by rewrite Z.mul_1_r. Qed.

Lemma inject_Z_le (a b : Z) : a ≤ b → (inject_Z a <= inject_Z b)%Q.
Proof. intros H. by rewrite <- Zle_Qle. Qed.

Lemma inject_Z_lt (a b : Z) : a < b → (inject_Z a < inject_Z b)%Q.
Proof. intros H. by rewrite <- Zlt_Qlt. Qed.

(** C3 (amended). When the verified documents are no more than the stage-1
    documents and no more than the applicable total, and both denominators
    are positive, the false-positive rate and the climate-mention rate are
    computed without error and lie in [0, 100] after rounding. *)
Theorem reported_rates_in_range {R} (verified_docs stage1_docs : Z) (total : list R) :
  0 ≤ verified_docs → verified_docs ≤ stage1_docs → 0 < stage1_docs →
  verified_docs ≤ len total → 0 < len total →
  (∃ r, false_positive_rate_pct verified_docs stage1_docs = Ok r ∧
        (0 <= r)%Q ∧ (r <= 100)%Q) ∧
  (∃ r, rate_pct verified_docs total = Ok r ∧ (0 <= r)%Q ∧ (r <= 100)%Q).
Proof.
  intros Hv Hs Hpos Ht Htpos.
  pose proof (inject_Z_le _ _ Hv) as Hv'. pose proof (inject_Z_le _ _ Hs) as Hs'.
  pose proof (inject_Z_lt _ _ Hpos) as Hpos'. pose proof (inject_Z_le _ _ Ht) as Ht'.
  pose proof (inject_Z_lt _ _ Htpos) as Htpos'.
  change (inject_Z 0) with 0%Q in *.
  split.
  - unfold false_positive_rate_pct, py_truediv.
    rewrite Qeq_bool_inject_Z. destruct (Z.eqb_spec stage1_docs 0) as [|_]; [lia |].
    eexists. split; [reflexivity |].
    apply (py_round1_bounds 0 100).
    + assert (inject_Z verified_docs / inject_Z stage1_docs <= 1)%Q.
      { apply Qle_shift_div_r; [done | lra]. }
      change (inject_Z 0) with 0%Q. lra.
    + assert (0 <= inject_Z verified_docs / inject_Z stage1_docs)%Q.
      { apply Qle_shift_div_l; [done | lra]. }
      change (inject_Z 100) with 100%Q. lra.
  - unfold rate_pct, py_truediv, of_len. fold (len total).
    rewrite Qeq_bool_inject_Z. destruct (Z.eqb_spec (len total) 0) as [|_]; [lia |].
    eexists. split; [reflexivity |].
    apply (py_round1_bounds 0 100).
    + change (inject_Z 0) with 0%Q. apply Qle_shift_div_l; [done | lra].
    + change (inject_Z 100) with 100%Q. apply Qle_shift_div_r; [done | lra].
Qed.

Lemma reported_rates_in_range_witness :
  (∃ r, false_positive_rate_pct 1 3 = Ok r ∧ (0 <= r)%Q ∧ (r <= 100)%Q) ∧
  (∃ r, rate_pct 1 [(); (); ()] = Ok r ∧ (0 <= r)%Q ∧ (r <= 100)%Q).
Proof.
  apply (reported_rates_in_range 1 3 [(); (); ()]); unfold len; simpl; lia.
Defined.

(** C3 fails as stated: the verified speeches are counted over all
    institutions and divided by the size of the core sample, so a verified
    speech of an excluded institution pushes the rate above 100. *)
Lemma speech_rate_above_100 :
  ∃ items paired,
    analysis small_sample_stats tables_with_excluded_speech = Ok (items, paired) ∧
    get "verified_speech_docs" items = Some (VInt 2) ∧
    get "speech_total_core_sample" items = Some (VInt 1) ∧
    get "speech_rate_core_denom_pct" items = Some (VFloat (Fin 200.0)) ∧
    ¬ (200.0 <= 100)%Q.
Proof.
  eexists _, _. split; [vm_compute; reflexivity |].
  split_and!; try (vm_compute; reflexivity). by vm_compute.
Qed.

Lemma bind_Ok {A B} (m : result A) (k : A → result B) b :
  m ≫= k = Ok b → ∃ a, m = Ok a ∧ k a = Ok b.
Proof. destruct m as [a|e]; [eauto | done]. Qed.

(** Peel the successful binds of a computation that returned. *)
Ltac invert_binds H :=
  repeat (let a := fresh "a" in let Ha := fresh "Ha" in
          apply bind_Ok in H as (a & Ha & H));
  repeat match goal with
  | Ha : Timestamp _ = Ok ?v |- _ => is_var v; vm_compute in Ha; injection Ha as <-
  | Ha : mret _ = Ok ?v |- _ => is_var v; cbn in Ha; injection Ha as <-
  end.

Lemma elem_of_since (start : timestamp) (minutes : list (Z * minute)) r :
  r ∈ since start (ecb minutes) ↔
    r ∈ minutes ∧ m_institution r.2 = Some "European Central Bank" ∧
    ∃ d, m_Date r.2 = Some d ∧ ts_leb start d = true.
Proof.
  unfold since, ecb, ts_ge. rewrite !list_elem_of_filter.
  destruct (m_Date r.2) as [d|]; split.
  - intros (? & ? & ?). eauto.
  - intros (? & ? & d' & [= <-] & ?). done.
  - intros (? & _); done.
  - intros (_ & _ & d' & ? & _); done.
Qed.

Lemma ts_leb_trans (a b c : timestamp) :
  ts_leb a b = true → ts_leb b c = true → ts_leb a c = true.
Proof.
  unfold ts_leb. destruct a, b, c; simpl.
  rewrite !orb_true_iff, !andb_true_iff, !orb_true_iff, !andb_true_iff.
  rewrite !Z.ltb_lt, !Z.eqb_eq, !Z.leb_le. lia.
Qed.

(** C5. When the aggregator completes, the main Lagarde window is exactly
    the minutes of the European Central Bank dated on or after 2019-07-01,
    and its reported total, verified count and rate are computed over that
    window alone; the strict window is exactly those dated on or after
    2019-11-01, a part of the main window, reported with a total and a rate
    of its own. *)
Theorem ecb_lagarde_windows (st : scipy_stats) (t : tables) items paired :
  analysis st t = Ok (items, paired) →
  let minutes := with_ids (rows (minutes_raw t)) in
  let ex := rows (excerpts_classified t) in
  let main := since (mkTs 2019 7 1) (ecb minutes) in
  let strict := since (mkTs 2019 11 1) (ecb minutes) in
  (∀ r, r ∈ main ↔
     r ∈ minutes ∧ m_institution r.2 = Some "European Central Bank" ∧
     ∃ d, m_Date r.2 = Some d ∧ ts_leb (mkTs 2019 7 1) d = true) ∧
  (∀ r, r ∈ strict ↔
     r ∈ minutes ∧ m_institution r.2 = Some "European Central Bank" ∧
     ∃ d, m_Date r.2 = Some d ∧ ts_leb (mkTs 2019 11 1) d = true) ∧
  (∀ r, r ∈ strict → r ∈ main) ∧
  get "ecb_lagarde_total" items = Some (VInt (len main)) ∧
  get "ecb_lagarde_docs" items =
    Some (VInt (len (filter (λ r, r.1 ∈ ecb_ids ex) main))) ∧
  get "ecb_lagarde_rate_pct" items =
    Some (VFloat (np_round 1 (np_truediv
      (100 * inject_Z (len (filter (λ r, r.1 ∈ ecb_ids ex) main)))
      (inject_Z (len main))))) ∧
  get "ecb_lagarde_total_if_strict_appointment_window" items =
    Some (VInt (len strict)) ∧
  get "ecb_lagarde_rate_if_strict_appointment_window_pct" items =
    Some (VFloat (np_round 1 (np_truediv
      (100 * inject_Z (len (filter (λ r, r.1 ∈ ecb_ids ex) strict)))
      (inject_Z (len strict))))).
Proof.
  intros H minutes ex main strict.
  unfold analysis in H. invert_binds H. injection H as <- <-.
  split_and!; try reflexivity.
  - apply elem_of_since.
  - apply elem_of_since.
  - intros r. unfold main, strict. rewrite !elem_of_since.
    intros (? & ? & d & ? & Hd). split_and!; try done.
    exists d. split; [done |]. by apply (ts_leb_trans _ (mkTs 2019 11 1)).
Qed.

Lemma ecb_lagarde_windows_witness :
  ∃ items paired,
    analysis small_sample_stats tables_ecb_lagarde = Ok (items, paired) ∧
    get "ecb_lagarde_total" items = Some (VInt 3) ∧
    get "ecb_lagarde_docs" items = Some (VInt 1) ∧
    get "ecb_lagarde_rate_pct" items = Some (VFloat (Fin 33.3)) ∧
    get "ecb_lagarde_total_if_strict_appointment_window" items = Some (VInt 2) ∧
    get "ecb_lagarde_rate_if_strict_appointment_window_pct" items =
      Some (VFloat (Fin 50.0)).
Proof.
  destruct (analysis small_sample_stats tables_ecb_lagarde)
    as [[items paired]|e] eqn:H; [| by vm_compute in H].
  exists items, paired. split; [done |].
  destruct (ecb_lagarde_windows _ _ _ _ H) as (_ & _ & _ & -> & -> & -> & -> & ->).
  split_and!; vm_compute; reflexivity.
Defined.

Lemma of_len_nonempty {A} (l : list A) : l ≠ [] → Qeq_bool (of_len l) 0 = false.
Proof. by destruct l. Qed.

Lemma binary64_zero (q : Q) : (q == 0)%Q → binary64 q = 0%Q.
Proof. intros Hq. unfold binary64. apply Qeq_bool_iff in Hq. by rewrite Hq. Qed.

(** The rates formed with Python scalars raise on a zero denominator. *)
Lemma zero_denominators_raise {R S} (verified_s verified_m : Z)
    (core : list R) (minutes : list S) :
  false_positive_rate_pct verified_s 0 = Raise ZeroDivisionError ∧
  rate_pct verified_s (@nil R) = Raise ZeroDivisionError ∧
  gap_ratio verified_s (@nil R) verified_m minutes = Raise ZeroDivisionError ∧
  (core ≠ [] → gap_ratio verified_s core verified_m (@nil S) = Raise ZeroDivisionError) ∧
  (core ≠ [] → minutes ≠ [] →
     gap_ratio verified_s core 0 minutes = Raise ZeroDivisionError).
Proof.
  split_and!; try reflexivity.
  - intros Hc. unfold gap_ratio, py_truediv_b64.
    rewrite (of_len_nonempty core) by done. reflexivity.
  - intros Hc Hm. unfold gap_ratio, py_truediv_b64.
    rewrite (of_len_nonempty core), (of_len_nonempty minutes) by done. cbn.
    rewrite (binary64_zero (inject_Z 0 / of_len minutes)); [done |].
    unfold Qdiv. change (inject_Z 0) with 0%Q. ring.
Qed.

(** *** The gap ratio in binary64 *)

Lemma round_half_even_near (q : Q) :
  (inject_Z (round_half_even q) - q <= 1 # 2)%Q ∧
  (q - inject_Z (round_half_even q) <= 1 # 2)%Q.
Proof.
  unfold round_half_even.
  pose proof (Qfloor_le q) as Hlo. pose proof (Qlt_floor q) as Hhi.
  rewrite inject_Z_plus in Hhi. change (inject_Z 1) with 1%Q in Hhi.
  destruct (q - inject_Z (Qfloor q) ?= 1 # 2)%Q eqn:Hc.
  - apply Qeq_alt in Hc. destruct (Z.even (Qfloor q));
      [| rewrite inject_Z_plus; change (inject_Z 1) with 1%Q]; lra.
  - apply Qlt_alt in Hc. lra.
  - apply Qgt_alt in Hc. rewrite inject_Z_plus. change (inject_Z 1) with 1%Q. lra.
Qed.

Lemma round_half_even_nonneg (q : Q) : (0 <= q)%Q → 0 ≤ round_half_even q.
Proof.
  intros Hq. destruct (round_half_even_near q) as [_ H].
  assert (Hlt : (inject_Z (-1) < inject_Z (round_half_even q))%Q).
  { change (inject_Z (-1)) with (-1)%Q. lra. }
  rewrite <- Zlt_Qlt in Hlt. lia.
Qed.

(** [ilog2 q] is at most the binary logarithm of [|q|]. *)
Lemma ilog2_le (q : Q) : ¬ (q == 0)%Q → (2 ^ ilog2 q <= Qabs q)%Q.
Proof.
  intros Hq. unfold ilog2.
  set (a := Z.log2 (Z.abs (Qnum q))). set (b := Z.log2 (Z.pos (Qden q))).
  destruct (Qle_bool (2 ^ (a - b)) (Qabs q)) eqn:Ht.
  - by apply Qle_bool_iff.
  - assert (Hn : 0 < Z.abs (Qnum q)).
    { destruct q as [n d]. simpl. destruct (decide (n = 0)) as [->|]; [| lia].
      exfalso. by apply Hq. }
    destruct (Z.log2_spec _ Hn) as [Ha _].
    destruct (Z.log2_spec (Z.pos (Qden q)) ltac:(lia)) as [_ Hb].
    fold a in Ha. fold b in Hb. rewrite <- Z.add_1_r in Hb.
    assert (0 ≤ a) by apply Z.log2_nonneg. assert (0 ≤ b) by apply Z.log2_nonneg.
    replace (a - b - 1) with (a - (b + 1)) by lia.
    rewrite Qpower_minus by done.
    change 2%Q with (inject_Z 2). rewrite <- !Zpower_Qpower by lia.
    assert (Hpos : 0 < 2 ^ (b + 1)) by (apply Z.pow_pos_nonneg; lia).
    apply Qle_shift_div_r; [by apply (inject_Z_lt 0) |].
    destruct q as [n d]. unfold Qle, Qmult, Qabs, inject_Z. simpl in *.
    rewrite !Z.mul_1_r. nia.
Qed.

(** [binary64] has a relative error of at most the unit roundoff. *)
Lemma binary64_near (q : Q) :
  (0 <= q)%Q →
  (q * (1 - unit_roundoff) <= binary64 q)%Q ∧
  (binary64 q <= q * (1 + unit_roundoff))%Q.
Proof.
  intros Hq. unfold binary64. destruct (Qeq_bool q 0) eqn:Hz.
  - apply Qeq_bool_iff in Hz. rewrite Hz. unfold unit_roundoff. lra.
  - apply Qeq_bool_neq in Hz. cbv zeta. rewrite Qred_correct.
    pose proof (ilog2_le q Hz) as He. rewrite Qabs_pos in He by done.
    set (e := ilog2 q) in *. set (ulp := (2 ^ (e - 52))%Q).
    assert (Hulp : (0 < ulp)%Q) by (apply Qpower_0_lt; lra).
    assert (Hu : (ulp * (1 # 2) == 2 ^ e * unit_roundoff)%Q).
    { unfold ulp, unit_roundoff. rewrite Qpower_minus by done.
      assert (E52 : (2 ^ 52 == 4503599627370496)%Q) by (by vm_compute).
      rewrite E52. field. }
    destruct (round_half_even_near (q / ulp)) as [H1 H2].
    set (r := inject_Z (round_half_even (q / ulp))) in *.
    apply (Qmult_le_compat_r _ _ ulp) in H1, H2; try lra.
    assert (E1 : ((r - q / ulp) * ulp == r * ulp - q)%Q) by (field; lra).
    assert (E2 : ((q / ulp - r) * ulp == q - r * ulp)%Q) by (field; lra).
    rewrite E1 in H1. rewrite E2 in H2.
    assert (Hq' : (2 ^ e * unit_roundoff <= q * unit_roundoff)%Q).
    { apply Qmult_le_compat_r; [done | by unfold unit_roundoff]. }
    split; lra.
Qed.

Lemma binary64_nonneg (q : Q) : (0 <= q)%Q → (0 <= binary64 q)%Q.
Proof.
  intros Hq. destruct (binary64_near q Hq) as [H _].
  assert (0 <= q * (1 - unit_roundoff))%Q; [| lra].
  apply Qmult_le_0_compat; [done | by unfold unit_roundoff].
Qed.

Lemma binary64_pos (q : Q) : (0 < q)%Q → (0 < binary64 q)%Q.
Proof.
  intros Hq. destruct (binary64_near q) as [H _]; [lra |].
  assert (0 < q * (1 - unit_roundoff))%Q; [| lra].
  apply Qmult_lt_0_compat; [done | by unfold unit_roundoff].
Qed.

(** A quotient of two rounded values is near the quotient of the values. *)
Lemma quotient_near (A B a b : Q) :
  (0 <= A)%Q → (0 < B)%Q →
  (A * (1 - unit_roundoff) <= a)%Q → (a <= A * (1 + unit_roundoff))%Q →
  (B * (1 - unit_roundoff) <= b)%Q → (b <= B * (1 + unit_roundoff))%Q →
  (0 <= a / b)%Q ∧
  (A / B * (1 - unit_roundoff) <= a / b * (1 + unit_roundoff))%Q ∧
  (a / b * (1 - unit_roundoff) <= A / B * (1 + unit_roundoff))%Q.
Proof.
  intros HA HB Ha1 Ha2 Hb1 Hb2.
  assert (Hb : (0 < b)%Q).
  { assert (0 < B * (1 - unit_roundoff))%Q; [| lra].
    apply Qmult_lt_0_compat; [done | by unfold unit_roundoff]. }
  assert (Ha : (0 <= a)%Q).
  { assert (0 <= A * (1 - unit_roundoff))%Q; [| lra].
    apply Qmult_le_0_compat; [done | by unfold unit_roundoff]. }
  set (r := (a / b)%Q). set (q := (A / B)%Q).
  assert (Hr : (r * b == a)%Q) by (unfold r; field; lra).
  assert (Hq : (q * B == A)%Q) by (unfold q; field; lra).
  assert (Hr0 : (0 <= r)%Q).
  { unfold r. apply Qle_shift_div_l; [done | lra]. }
  assert (Hq0 : (0 <= q)%Q).
  { unfold q. apply Qle_shift_div_l; [done | lra]. }
  split; [done |]. split.
  - (* q B (1-u) = A (1-u) <= a = r b <= r B (1+u) *)
    assert (H : (r * b <= r * (B * (1 + unit_roundoff)))%Q).
    { rewrite !(Qmult_comm r). by apply Qmult_le_compat_r. }
    apply (Qmult_le_l _ _ B); [done |].
    assert (E1 : (B * (q * (1 - unit_roundoff)) == A * (1 - unit_roundoff))%Q)
      by (rewrite <- Hq; ring).
    assert (E2 : (B * (r * (1 + unit_roundoff)) == r * (B * (1 + unit_roundoff)))%Q)
      by ring.
    lra.
  - assert (H : (r * (B * (1 - unit_roundoff)) <= r * b)%Q).
    { rewrite !(Qmult_comm r). by apply Qmult_le_compat_r. }
    apply (Qmult_le_l _ _ B); [done |].
    assert (E1 : (B * (q * (1 + unit_roundoff)) == A * (1 + unit_roundoff))%Q)
      by (rewrite <- Hq; ring).
    assert (E2 : (B * (r * (1 - unit_roundoff)) == r * (B * (1 - unit_roundoff)))%Q)
      by ring.
    lra.
Qed.

Lemma of_len_positive {A} (l : list A) : l ≠ [] → (0 < of_len l)%Q.
Proof. intros Hl. destruct l; [done |]. apply (inject_Z_lt 0). simpl. lia. Qed.

(** C2 (amended). The gap ratio is formed from the two unrounded
    fractions, verified speeches over the core sample and verified minutes
    over all minutes, not from the reported rates.  With a positive number
    of verified minutes and non-empty samples it is the double nearest a
    one-decimal number [k / 10], and both lie within half a unit of the
    last decimal, up to the rounding error of the three float divisions,
    of the exact quotient of the two fractions. *)
Theorem gap_ratio_near_quotient_of_fractions {R S} (verified_s : Z) (core : list R)
    (verified_m : Z) (minutes : list S) :
  0 ≤ verified_s → 0 < verified_m → core ≠ [] → minutes ≠ [] →
  let q := ((inject_Z verified_s / of_len core) /
            (inject_Z verified_m / of_len minutes))%Q in
  ∃ k : Z,
    gap_ratio verified_s core verified_m minutes = Ok (binary64 (k # 10)) ∧
    0 ≤ k ∧
    (Qabs ((k # 10) - q) <= (1 # 20) + q / 10 ^ 15)%Q ∧
    (Qabs (binary64 (k # 10) - q) <= (1 # 20) + (q + 1) / 10 ^ 15)%Q.
Proof.
  intros Hs Hm Hcore Hmin q.
  pose proof (of_len_positive core Hcore) as Hc.
  pose proof (of_len_positive minutes Hmin) as Hn.
  set (A := (inject_Z verified_s / of_len core)%Q) in *.
  set (B := (inject_Z verified_m / of_len minutes)%Q) in *.
  assert (HA : (0 <= A)%Q).
  { unfold A. apply Qle_shift_div_l; [done |]. apply (inject_Z_le 0) in Hs.
    change (inject_Z 0) with 0%Q in Hs. lra. }
  assert (HB : (0 < B)%Q).
  { unfold B. apply Qlt_shift_div_l; [done |]. apply (inject_Z_lt 0) in Hm.
    change (inject_Z 0) with 0%Q in Hm. lra. }
  destruct (binary64_near A HA) as [Ha1 Ha2].
  destruct (binary64_near B) as [Hb1 Hb2]; [lra |].
  pose proof (binary64_pos B HB) as Hb.
  destruct (quotient_near A B (binary64 A) (binary64 B)) as (Hr0 & Hr1 & Hr2); try done.
  fold q in Hr1, Hr2.
  set (r := (binary64 A / binary64 B)%Q) in *.
  destruct (binary64_near r Hr0) as [Hx1 Hx2].
  pose proof (binary64_nonneg r Hr0) as Hx0.
  set (x := binary64 r) in *.
  set (k := round_half_even (x * inject_Z 10)).
  assert (Hk0 : 0 ≤ k).
  { apply round_half_even_nonneg. change (inject_Z 10) with 10%Q. lra. }
  destruct (round_half_even_near (x * inject_Z 10)) as [Hk1 Hk2]. fold k in Hk1, Hk2.
  change (inject_Z 10) with 10%Q in Hk1, Hk2.
  assert (Ek : (k # 10 == inject_Z k / 10)%Q) by apply Qmake_Qdiv.
  assert (Hk10 : (0 <= k # 10)%Q).
  { rewrite Ek. apply Qle_shift_div_l; [done |]. apply (inject_Z_le 0) in Hk0.
    change (inject_Z 0) with 0%Q in Hk0. lra. }
  destruct (binary64_near (k # 10) Hk10) as [Hg1 Hg2].
  assert (Ed : ((k # 10) * 10 == inject_Z k)%Q) by (rewrite Ek; field).
  assert (Hq0 : (0 <= q)%Q).
  { unfold q. apply Qle_shift_div_l; [done | lra]. }
  exists k. split.
  { unfold gap_ratio, py_truediv_b64.
    rewrite (of_len_nonempty core), (of_len_nonempty minutes) by done. cbn.
    fold A B.
    destruct (Qeq_bool (binary64 B) 0) eqn:Hz.
    - apply Qeq_bool_iff in Hz. exfalso. lra.
    - reflexivity. }
  split; [done |].
  assert (E15 : (10 ^ 15 == 1000000000000000)%Q) by reflexivity.
  assert (Eq1 : (q / 10 ^ 15 == q * (1 # 1000000000000000))%Q) by (rewrite E15; field).
  assert (Eq2 : ((q + 1) / 10 ^ 15 == (q + 1) * (1 # 1000000000000000))%Q)
    by (rewrite E15; field).
  unfold unit_roundoff in *.
  split; apply Qabs_Qle_condition; split; lra.
Qed.

Lemma gap_ratio_near_quotient_of_fractions_witness :
  ∃ k : Z,
    gap_ratio 1 [tt] 4 (replicate 11 tt) = Ok (binary64 (k # 10)) ∧
    0 ≤ k ∧
    (Qabs ((k # 10) - (11 # 4)) <= (1 # 20) + (11 # 4) / 10 ^ 15)%Q ∧
    (Qabs (binary64 (k # 10) - (11 # 4)) <= (1 # 20) + ((11 # 4) + 1) / 10 ^ 15)%Q.
Proof.
  destruct (gap_ratio_near_quotient_of_fractions 1 [tt] 4 (replicate 11 tt))
    as (k & Hk & Hk0 & H1 & H2); [lia | lia | done | done |].
  exists k. split; [exact Hk |]. split; [exact Hk0 |].
  assert (E : (inject_Z 1 / of_len [tt] / (inject_Z 4 / of_len (replicate 11 tt))
               == 11 # 4)%Q) by (by vm_compute).
  rewrite E in H1, H2. split; [exact H1 | exact H2].
Defined.

(** At a decimal tie the emitted value is the one binary64 gives: three of
    five over four of five is 0.7 (the float quotient lies just below
    0.75), and one of one over four of eleven is 2.8 (the float quotient is
    exactly 2.75). *)
Example gap_ratio_at_decimal_ties :
  gap_ratio 3 (replicate 5 tt) 4 (replicate 5 tt) = Ok (binary64 0.7) ∧
  gap_ratio 1 [tt] 4 (replicate 11 tt) = Ok (binary64 2.8) ∧
  py_round_b64 1 (binary64 (binary64 (100 * 1 / 1) / binary64 (100 * 4 / 11))) =
    binary64 2.7.
Proof. split_and!; vm_compute; reflexivity. Qed.

(** C2 fails as stated: with one verified speech out of one and one
    verified minute out of fourteen the reported rates are 100.0 and 7.1,
    the reported gap ratio is 14.0, and the quotient of the reported rates,
    formed and rounded in binary64, is 14.1. *)
Lemma gap_ratio_differs_from_reported_rates :
  ∃ items paired,
    analysis small_sample_stats tables_one_in_fourteen = Ok (items, paired) ∧
    get "speech_rate_core_denom_pct" items = Some (VFloat (Fin 100.0)) ∧
    get "minute_rate_pct" items = Some (VFloat (Fin 7.1)) ∧
    get "gap_ratio" items = Some (VFloat (Fin 14)) ∧
    py_round_b64 1 (binary64 (binary64 100.0 / binary64 7.1)) = binary64 14.1 ∧
    binary64 14.1 ≠ 14%Q.
Proof.
  eexists _, _. split; [vm_compute; reflexivity |].
  split_and!; try (vm_compute; reflexivity). by vm_compute.
Qed.

Lemma ecb_rate_pct_empty (ex : list excerpt) : ecb_rate_pct [] ex = NaN.
Proof. reflexivity. Qed.

(** C4, at a failing input: the only minute of the European Central Bank is
    dated before the count window, every other denominator is positive, and
    the aggregator completes with nan for both Lagarde rates instead of
    raising. *)
Theorem ecb_rate_is_nan_on_empty_window :
  ∃ items paired,
    analysis small_sample_stats tables_ecb_before_window = Ok (items, paired) ∧
    get "minute_total" items = Some (VInt 1) ∧
    get "ecb_lagarde_total" items = Some (VInt 0) ∧
    get "ecb_lagarde_rate_pct" items = Some (VFloat NaN) ∧
    get "ecb_lagarde_total_if_strict_appointment_window" items = Some (VInt 0) ∧
    get "ecb_lagarde_rate_if_strict_appointment_window_pct" items =
      Some (VFloat NaN).
Proof.
  eexists _, _. split; [vm_compute; reflexivity |].
  split_and!; vm_compute; reflexivity.
Qed.

(** Whatever the excerpts, the title carries the same p-value text. *)
Lemma title_shows_fixed_p_value (ex : list excerpt) :
  mentions (title (fig_commitment_grouped ex)) "(Mann-Whitney p=0.029)".
Proof.
  unfold fig_commitment_grouped, title.
  do 4 apply mentions_app_r.
  exists "    "%string, EmptyString. reflexivity.
Qed.

(** C6, at a failing input: the aggregator emits a Mann-Whitney p-value of
    1.0 while the title of the commitment-level figure drawn from the same
    excerpts shows 0.029. *)
Theorem figure_p_value_differs_from_emitted :
  ∃ items paired,
    analysis small_sample_stats tables_one_in_fourteen = Ok (items, paired) ∧
    get "mannwhitney_p" items = Some (VFloat (Fin 1.000)) ∧
    title (fig_commitment_grouped (rows (excerpts_classified tables_one_in_fourteen))) =
      "Mean: Speeches=2.00, Minutes=1.00    (Mann-Whitney p=0.029)".
Proof.
  eexists _, _. split; [vm_compute; reflexivity |].
  split; vm_compute; reflexivity.
Qed.

(** Figure 1 maps a year without documents to a rate of zero and never
    plots a non-finite value. *)
Lemma rate_or_zero_finite (climate total : Z) :
  ∃ q, rate_or_zero climate total = Fin q.
Proof.
  unfold rate_or_zero, np_truediv. destruct (Z.ltb_spec 0 total); [| eauto].
  rewrite Qeq_bool_inject_Z. destruct (Z.eqb_spec total 0); [lia | eauto].
Qed.

Lemma rate_or_zero_missing (climate : Z) : rate_or_zero climate 0 = Fin 0.
Proof. reflexivity. Qed.

Lemma filter_elem_of_nil {A} `{EqDecision A} (l : list A) :
  filter (λ i, i ∈ @nil A) l = [].
Proof.
  induction l as [|x l IH]; [done |].
  rewrite filter_cons, decide_False by apply not_elem_of_nil. done.
Qed.

Lemma first_mention_lag_without_minute_excerpts (speeches : list speech)
    (minutes : list minute) (ex : list excerpt) :
  doc_type_is "minute" ex = [] →
  fig_first_mention_lag speeches minutes ex = Raise ZeroDivisionError.
Proof.
  intros Hm. unfold fig_first_mention_lag. rewrite Hm.
  change (first_year _ (year_of m_year (with_ids minutes))) with (@nil (string * option Z)).
  change ((@nil (string * option Z)).*1) with (@nil string).
  rewrite filter_elem_of_nil. reflexivity.
Qed.

(** C7, at a failing input: the aggregator completes, no institution has
    both a verified speech and a verified minute, and the first-mention lag
    figure raises [ZeroDivisionError]. *)
Theorem first_mention_lag_raises :
  (∃ items paired,
     analysis small_sample_stats tables_no_common_institution = Ok (items, paired)) ∧
  fig_first_mention_lag
    (rows (speeches_raw tables_no_common_institution))
    (rows (minutes_raw tables_no_common_institution))
    (rows (excerpts_classified tables_no_common_institution))
  = Raise ZeroDivisionError.
Proof.
  split; [eexists _, _; vm_compute; reflexivity | vm_compute; reflexivity].
Qed.

Lemma run_analysis_load (st : scipy_stats) (fs : gmap string file) :
  run_analysis st fs =
    (t ← load fs;
     out ← analysis st t;
     mret (<[WITHIN_INSTITUTION_RATES_CSV := PairedCsv out.2]>
             (<[MAIN_NUMBERS_JSON := Json (merge_sort key_le out.1)]> fs))).
Proof.
  unfold run_analysis, load.
  repeat match goal with
  | |- context [read_csv ?v ?p fs] =>
      destruct (read_csv v p fs); cbn; [| reflexivity]
  end.
  reflexivity.
Qed.

Lemma read_csv_agree {A} (view : file → option A) (p : string)
    (fs1 fs2 : gmap string file) :
  fs1 !! p = fs2 !! p → read_csv view p fs1 = read_csv view p fs2.
Proof. intros H. unfold read_csv. by rewrite H. Qed.

Lemma load_agree (fs1 fs2 : gmap string file) :
  (∀ p, p ∈ INPUTS → fs1 !! p = fs2 !! p) → load fs1 = load fs2.
Proof.
  intros H. unfold load.
  rewrite !(read_csv_agree _ _ fs1 fs2) by (apply H; unfold INPUTS; set_solver).
  reflexivity.
Qed.

Lemma inputs_not_written (p : string) :
  p ∈ INPUTS → p ≠ MAIN_NUMBERS_JSON ∧ p ≠ WITHIN_INSTITUTION_RATES_CSV.
Proof.
  unfold INPUTS. rewrite !elem_of_cons, elem_of_nil.
  intros [->|[->|[->|[->|[->|[->|[->|[]]]]]]]]; split; by vm_compute.
Qed.

Lemma Sorted_keys (items : list (string * value)) :
  Sorted key_le items → Sorted String.le items.*1.
Proof.
  induction 1 as [|kv l Hs IH Hhd]; [constructor |].
  cbn. constructor; [done |].
  destruct Hhd; cbn; constructor. done.
Qed.

Global Instance key_le_total : Total key_le.
Proof. intros a b. apply (total String.le). Qed.

(** C10. Running the aggregator a second time on the files the first run
    left behind changes nothing; what it writes depends on the seven input
    files only, not on the previous content of its outputs; and after a
    successful run the metrics record holds its items in ascending key
    order while every file other than the two outputs is untouched. *)
Theorem run_analysis_idempotent (st : scipy_stats) :
  (∀ fs, run_analysis st fs ≫= run_analysis st = run_analysis st fs) ∧
  (∀ fs1 fs2, (∀ p, p ∈ INPUTS → fs1 !! p = fs2 !! p) →
     (fs' ← run_analysis st fs1;
      mret (fs' !! MAIN_NUMBERS_JSON, fs' !! WITHIN_INSTITUTION_RATES_CSV)) =
     (fs' ← run_analysis st fs2;
      mret (fs' !! MAIN_NUMBERS_JSON, fs' !! WITHIN_INSTITUTION_RATES_CSV))) ∧
  (∀ fs fs', run_analysis st fs = Ok fs' →
     ∃ items, fs' !! MAIN_NUMBERS_JSON = Some (Json items) ∧
              Sorted String.le items.*1 ∧
              (∀ p, p ≠ MAIN_NUMBERS_JSON → p ≠ WITHIN_INSTITUTION_RATES_CSV →
                    fs' !! p = fs !! p)).
Proof.
  split_and!.
  - intros fs. rewrite (run_analysis_load st fs).
    destruct (load fs) as [t|e] eqn:Hload; [| done]. cbn.
    destruct (analysis st t) as [out|e] eqn:Hout; [| done]. cbn.
    rewrite run_analysis_load.
    rewrite (load_agree _ fs), Hload.
    + cbn. rewrite Hout. cbn. f_equal.
      rewrite (insert_insert_ne _ MAIN_NUMBERS_JSON WITHIN_INSTITUTION_RATES_CSV)
        by (by vm_compute).
      by rewrite !insert_insert_eq.
    + intros p [H1 H2]%inputs_not_written.
      by rewrite !lookup_insert_ne.
  - intros fs1 fs2 H. rewrite !run_analysis_load, (load_agree fs1 fs2 H).
    destruct (load fs2) as [t|e]; [| done]. cbn.
    destruct (analysis st t) as [out|e]; [| done]. cbn.
    rewrite lookup_insert_ne by (by vm_compute).
    by rewrite !lookup_insert_eq, lookup_insert_ne, lookup_insert_eq by (by vm_compute).
  - intros fs fs'. rewrite run_analysis_load.
    intros (t & _ & (out & _ & [= <-])%bind_Ok)%bind_Ok.
    eexists. split_and!.
    + rewrite lookup_insert_ne by (by vm_compute). apply lookup_insert_eq.
    + apply Sorted_keys, Sorted_merge_sort. apply _.
    + intros p H1 H2. by rewrite !lookup_insert_ne.
Qed.

(** A run that succeeds: on the store of the Lagarde example the aggregator
    writes the paired table and a record whose first and last keys are the
    alphabetically first and last of the dictionary. *)
Example run_analysis_on_lagarde_store :
  (fs ← run_analysis small_sample_stats (store_of tables_ecb_lagarde);
   mret (match fs !! MAIN_NUMBERS_JSON with
         | Some (Json items) => (head items.*1, last items.*1, length items)
         | _ => (None, None, 0%nat)
         end,
         fs !! WITHIN_INSTITUTION_RATES_CSV)) =
  Ok ((Some "ecb_lagarde_appointment_date_marker",
       Some "within_inst_speech_rate_pct", 43%nat),
      Some (PairedCsv [mkPaired "European Central Bank" (Fin 100) (Fin (200 # 4))])).
Proof. vm_compute. reflexivity. Qed.
